(** * Circuitclock: configuration store, access-point start-up and clock face

    A shallow embedding of [main.py] of the NeoPixel ring clock.  The part of
    the program that is available in source form is the configuration store
    ([load_config], [save_config]), [blink_led], [start_ap_mode] and the
    guard that opens [try_connect_wifi].  Those are translated statement by
    statement into a state-and-exception monad over the module's globals.

    The clock geometry, the colour arithmetic and the frame renderer are
    described by the design document only; their models are marked as such.

    Conventions
    - a Python dict with string keys is a [gmap string _];
    - a Python exception is an [exn] carried by the monad, [try/except] is
      [try_except];
    - the JSON codec, the radio and the web server are platform services,
      collected in the record [platform]; console output is not modelled. *)

From Stdlib Require Import QArith Qround Ascii.
From stdpp Require Import gmap strings list fin_maps pretty.

Close Scope Q_scope.
Local Open Scope string_scope.
Local Open Scope list_scope.
Local Open Scope Z_scope.

(** ** Values stored in the configuration *)

(** What [json.loads] can produce and [json.dumps] can print.  A float is
    kept as the decimal literal [m * 10^e] that denotes it; the program only
    stores and retrieves floats, it never computes with them here. *)
#[warnings="-register-all"]
Inductive json : Type :=
  | JNull
  | JBool (b : bool)
  | JInt (z : Z)
  | JFloat (m e : Z)
  | JStr (s : string)
  | JList (l : list json)
  | JDict (d : gmap string json).

(** Python truth value of an object, as used by [if not x]. *)
Definition truthy (v : json) : bool :=
  match v with
  | JNull => false
  | JBool b => b
  | JInt z => negb (z =? 0)
  | JFloat m _ => negb (m =? 0)
  | JStr s => negb (String.length s =? 0)%nat
  | JList l => negb (length l =? 0)%nat
  | JDict d => negb (size d =? 0)%nat
  end.

(** [DEFAULT_CONFIG], in the order of the source. *)
Definition DEFAULT_CONFIG : list (string * json) :=
  [ ("wifi_ssid", JStr "");
    ("wifi_password", JStr "");
    ("ap_ssid", JStr "LEDClock");
    ("ap_password", JStr "clockconfig");
    ("ap_mode", JBool false);
    ("brightness", JFloat 2 (-1));
    ("hour_color", JList [JInt 255; JInt 0; JInt 0]);
    ("minute_color", JList [JInt 0; JInt 255; JInt 0]);
    ("second_color", JList [JInt 0; JInt 0; JInt 255]);
    ("marker_color", JList [JInt 32; JInt 32; JInt 32]);
    ("background_color", JList [JInt 0; JInt 0; JInt 0]);
    ("mode", JStr "standard");
    ("trail_length", JInt 3);
    ("pulse_speed", JInt 5);
    ("rainbow_speed", JInt 5) ].

Definition NUM_PIXELS : Z := 60.

(** [DEFAULT_CONFIG.copy()]: a fresh dict with the same bindings. *)
Definition DEFAULT_CONFIG_copy : gmap string json := list_to_map DEFAULT_CONFIG.

(** The keys of [DEFAULT_CONFIG]. *)
Definition default_keys : list string := DEFAULT_CONFIG.*1.

(** ** The machine: module globals, the file system and an event log *)

Inductive exn : Type :=
  | OSError
  | ValueError
  | AttributeError
  | TypeError
  | RuntimeError.

(** How the file system answers an attempt to write [CONFIG_FILE]:
    [OpenFault] makes [open(CONFIG_FILE, "w")] raise (read-only storage),
    [WriteFault] makes [f.write] raise after the file was truncated. *)
Inductive write_fault : Type := NoFault | OpenFault | WriteFault.

Record filesystem : Type := {
  config_file : option string;   (* text of /config.json, None when absent *)
  read_fault : bool;             (* opening for reading raises OSError *)
  write_behaviour : write_fault
}.

(** The four connectivity states of the design document. *)
Inductive conn_state : Type :=
  | Disconnected
  | ConnectingClient
  | ClientConnected
  | APMode.

(** What the program does to the outside world, oldest event first. *)
Inductive event : Type :=
  | EvFileWrite (text : string)        (* f.write(text) on CONFIG_FILE returned *)
  | EvApFlag (b : bool)                (* in_ap_mode = b *)
  | EvRadioStartAp (ssid pw : json)    (* wifi.radio.start_ap(ssid=, password=) *)
  | EvLed (on : bool)                  (* led.value = on *)
  | EvServerStart                      (* server.start(address, 80) returned *)
  | EvEnter (s : conn_state)           (* connectivity manager changes state *)
  | EvRadioConnect (ssid pw : json).   (* wifi.radio.connect(ssid, password) *)

Inductive server_state : Type := NoServer | ServerCreated | ServerListening.

Record machine : Type := {
  config : gmap string json;     (* global config *)
  in_ap_mode : bool;             (* global in_ap_mode *)
  pool : bool;                   (* global pool is not None *)
  server : server_state;         (* global server *)
  fs : filesystem;
  events : list event
}.

Definition set_config (c : gmap string json) (st : machine) : machine :=
  {| config := c; in_ap_mode := in_ap_mode st; pool := pool st;
     server := server st; fs := fs st; events := events st |}.

Definition set_in_ap_mode (b : bool) (st : machine) : machine :=
  {| config := config st; in_ap_mode := b; pool := pool st;
     server := server st; fs := fs st; events := events st |}.

Definition set_pool (b : bool) (st : machine) : machine :=
  {| config := config st; in_ap_mode := in_ap_mode st; pool := b;
     server := server st; fs := fs st; events := events st |}.

Definition set_server (s : server_state) (st : machine) : machine :=
  {| config := config st; in_ap_mode := in_ap_mode st; pool := pool st;
     server := s; fs := fs st; events := events st |}.

Definition set_file (f : option string) (st : machine) : machine :=
  {| config := config st; in_ap_mode := in_ap_mode st; pool := pool st;
     server := server st;
     fs := {| config_file := f; read_fault := read_fault (fs st);
              write_behaviour := write_behaviour (fs st) |};
     events := events st |}.

Definition log (e : event) (st : machine) : machine :=
  {| config := config st; in_ap_mode := in_ap_mode st; pool := pool st;
     server := server st; fs := fs st; events := events st ++ [e] |}.

(** The module as it is right after import: [config = {}],
    [in_ap_mode = False], [pool = None], [server = None]. *)
Definition boot (f : filesystem) : machine :=
  {| config := ∅; in_ap_mode := false; pool := false; server := NoServer;
     fs := f; events := [] |}.

(** ** State and exception monad *)

Inductive outcome (A : Type) : Type :=
  | Ok (a : A)
  | Raise (e : exn).
Arguments Ok {A} a.
Arguments Raise {A} e.

Definition M (A : Type) : Type := machine -> outcome A * machine.

Definition ret {A} (a : A) : M A := fun st => (Ok a, st).

Definition raise {A} (e : exn) : M A := fun st => (Raise e, st).

Definition bind {A B} (m : M A) (k : A -> M B) : M B :=
  fun st =>
    match m st with
    | (Ok a, st') => k a st'
    | (Raise e, st') => (Raise e, st')
    end.

Notation "'do' x <- m ; k" := (bind m (fun x => k))
  (at level 10, x name, m at level 100, k at level 200).
Notation "'run' m ; k" := (bind m (fun _ => k))
  (at level 10, m at level 100, k at level 200).

(** [try: body except <classes>: handler]; an exception outside [classes]
    propagates, one raised by the handler propagates too. *)
Definition try_except {A} (body : M A) (classes : exn -> bool) (handler : M A) : M A :=
  fun st =>
    match body st with
    | (Ok a, st') => (Ok a, st')
    | (Raise e, st') => if classes e then handler st' else (Raise e, st')
    end.

(** [except Exception] catches every exception of the model. *)
Definition any_exception (e : exn) : bool := true.

(** [except (OSError, ValueError)]. *)
Definition OSError_or_ValueError (e : exn) : bool :=
  match e with
  | OSError | ValueError => true
  | _ => false
  end.

Definition modify (f : machine -> machine) : M unit := fun st => (Ok tt, f st).

Definition gets {A} (f : machine -> A) : M A := fun st => (Ok (f st), st).

(** [for x in l: body x]. *)
Fixpoint for_each {A} (l : list A) (body : A -> M unit) : M unit :=
  match l with
  | [] => ret tt
  | x :: rest => run body x; for_each rest body
  end.

(** The value a call leaves behind when it returns normally. *)
Definition returned {A} (r : outcome A * machine) : option A :=
  match r.1 with
  | Ok a => Some a
  | Raise _ => None
  end.

(** ** Platform services *)

(** The services the program calls but does not define.  [json_loads]
    answers [None] where [json.loads] raises [ValueError]; the three
    boolean services answer [false] where the call raises.  Nothing in the
    program decides what the radio accepts: [radio_start_ap] is free, and
    the statements below hold for every platform unless they say
    otherwise.  [has_led] tells whether the global [led] is bound to a
    pin. *)
Record platform : Type := {
  json_loads : string -> option json;
  json_dumps : json -> string;
  radio_start_ap : json -> json -> bool;
  radio_connect : json -> json -> bool;
  web_server_start : bool -> bool;   (* argument: setup_routes' AP flag *)
  has_led : bool
}.

(** ** The program *)

Section Program.

Context (P : platform).

(** [with open(CONFIG_FILE, "r") as f: ... f.read()]: the text of the file,
    [OSError] when it is absent or cannot be opened. *)
Definition open_read : M string :=
  fun st =>
    if read_fault (fs st) then (Raise OSError, st)
    else match config_file (fs st) with
         | Some text => (Ok text, st)
         | None => (Raise OSError, st)
         end.

(** [open(CONFIG_FILE, "w")]: creates or truncates the file. *)
Definition open_write : M unit :=
  fun st =>
    match write_behaviour (fs st) with
    | OpenFault => (Raise OSError, st)
    | _ => (Ok tt, set_file (Some "") st)
    end.

(** [f.write(text)] on the file opened by [open_write]. *)
Definition file_write (text : string) : M unit :=
  fun st =>
    match write_behaviour (fs st) with
    | NoFault => (Ok tt, log (EvFileWrite text) (set_file (Some text) st))
    | _ => (Raise OSError, st)
    end.

(** [json.loads(text)]. *)
Definition loads (text : string) : M json :=
  match json_loads P text with
  | Some v => ret v
  | None => raise ValueError
  end.

(** [obj.get(key, dflt)]: defined on dicts only. *)
Definition py_get (obj : json) (key : string) (dflt : json) : M json :=
  match obj with
  | JDict d => ret (default dflt (d !! key))
  | _ => raise AttributeError
  end.

(** [config[key] = v]. *)
Definition config_setitem (key : string) (v : json) : M unit :=
  modify (fun st => set_config (<[key := v]> (config st)) st).

(** [config.get(key, dflt)] on the global dict. *)
Definition config_get (key : string) (dflt : json) : M json :=
  gets (fun st => default dflt (config st !! key)).

(** [save_config()] *)
Definition save_config : M bool :=
  try_except
    (run open_write;
     do cfg <- gets config;
     run file_write (json_dumps P (JDict cfg));
     ret true)
    any_exception
    (ret false).

(** [load_config()] *)
Definition load_config : M unit :=
  try_except
    (try_except
       (do text <- open_read;
        do loaded_config <- loads text;
        for_each DEFAULT_CONFIG (fun kv =>
          do v <- py_get loaded_config kv.1 kv.2;
          config_setitem kv.1 v))
       OSError_or_ValueError
       (run modify (set_config DEFAULT_CONFIG_copy);
        run save_config;
        ret tt))
    any_exception
    (modify (set_config DEFAULT_CONFIG_copy)).

(** [blink_led(times, delay)].  The pauses are not modelled, so this is
    the function for a delay that [time.sleep] takes (not negative), as in
    the one call the program makes, [blink_led(5, 0.1)]. *)
Definition blink_led (times : nat) : M unit :=
  if has_led P then
    for_each (seq 0 times) (fun _ =>
      run modify (log (EvLed true));
      modify (log (EvLed false)))
  else ret tt.

(** [wifi.radio.start_ap(ssid=ap_ssid, password=ap_password)] *)
Definition wifi_radio_start_ap (ssid pw : json) : M unit :=
  run modify (log (EvRadioStartAp ssid pw));
  if radio_start_ap P ssid pw then ret tt else raise ValueError.

(** Modelled from the spec: [setup_routes(ap); server.start(address, 80)]
    on the server just created.  [setup_routes] is not defined in the
    available part of main.py; section 4.4 has the access point "bind the
    configuration web server to the AP's address".  Whether the two calls
    return is the platform's: [web_server_start P ap = false] stands for a
    step that raises, which includes a [setup_routes] that is not bound. *)
Definition serve (ap : bool) : M unit :=
  if web_server_start P ap
  then modify (fun st => log EvServerStart (set_server ServerListening st))
  else raise RuntimeError.

(** [start_ap_mode()] *)
Definition start_ap_mode : M bool :=
  run modify (fun st => log (EvApFlag true) (set_in_ap_mode true st));
  try_except
    (do ap_ssid <- config_get "ap_ssid" (JStr "LEDClock");
     do ap_password <- config_get "ap_password" (JStr "clockconfig");
     run wifi_radio_start_ap ap_ssid ap_password;
     run blink_led 5;
     run modify (set_pool true);
     run modify (set_server ServerCreated);
     run serve true;
     ret true)
    any_exception
    (ret false).

(** Modelled from the spec: the body of [try_connect_wifi] after its
    opening guard is missing from the source.  Section 4.4: enter
    ConnectingClient, attempt one client connection; on success the state is
    ClientConnected, on failure the caller falls back to the access point. *)
Definition connect_client (ssid : json) : M bool :=
  run modify (log (EvEnter ConnectingClient));
  do password <- config_get "wifi_password" JNull;
  run modify (log (EvRadioConnect ssid password));
  if radio_connect P ssid password
  then (run modify (log (EvEnter ClientConnected)); ret true)
  else ret false.

(** [try_connect_wifi()]: the guard is the source's, the rest is
    [connect_client]. *)
Definition try_connect_wifi : M bool :=
  do ssid <- config_get "wifi_ssid" JNull;
  if negb (truthy ssid) then ret false
  else connect_client ssid.

(** Modelled from the spec: the start-up sequence of the connectivity
    manager, which lives in the missing main routine.  Section 4.4: try the
    client connection; "on connection failure or absent SSID -> APMode". *)
Definition connectivity_startup : M unit :=
  do connected <- try_connect_wifi;
  if connected then ret tt
  else (run start_ap_mode; ret tt).

End Program.

(** The connectivity state an event leads to: the manager's own moves, and
    the assignment [in_ap_mode = True], which is how the program records
    that it is in AP mode. *)
Definition state_of_event (e : event) : option conn_state :=
  match e with
  | EvEnter s => Some s
  | EvApFlag true => Some APMode
  | _ => None
  end.

(** The connectivity states visited, starting from Disconnected. *)
Definition history (evs : list event) : list conn_state :=
  Disconnected :: omap state_of_event evs.

Definition is_radio_connect (e : event) : bool :=
  match e with
  | EvRadioConnect _ _ => true
  | _ => false
  end.

Definition is_radio_start_ap (e : event) : bool :=
  match e with
  | EvRadioStartAp _ _ => true
  | _ => false
  end.

Definition is_file_write (e : event) : bool :=
  match e with
  | EvFileWrite _ => true
  | _ => false
  end.

(** ** A reference JSON codec

    An executable printer and parser for the JSON the configuration file
    holds (no exponents, no unicode escapes).  It instantiates the codec of
    [platform] wherever a statement is evaluated on a concrete file; the
    general statements quantify over the platform. *)

Module RefJson.

Definition dquote : ascii := "034"%char.
Definition backslash : ascii := "092"%char.
Definition newline : ascii := "010"%char.
Definition tab : ascii := "009"%char.

Fixpoint escape (s : string) : string :=
  match s with
  | EmptyString => EmptyString
  | String c r =>
      if Ascii.eqb c dquote then String backslash (String dquote (escape r))
      else if Ascii.eqb c backslash then String backslash (String backslash (escape r))
      else if Ascii.eqb c newline then String backslash (String "n"%char (escape r))
      else String c (escape r)
  end.

Definition quote (s : string) : string :=
  String dquote (escape s +:+ String dquote EmptyString).

Fixpoint zeros (n : nat) : string :=
  match n with
  | O => EmptyString
  | S k => String "0"%char (zeros k)
  end.

Fixpoint split_at (n : nat) (s : string) : string * string :=
  match n, s with
  | S k, String c r => let '(a, b) := split_at k r in (String c a, b)
  | _, _ => (EmptyString, s)
  end.

(** The literal of [m * 10^e], with a digit on either side of the point. *)
Definition print_float (m e : Z) : string :=
  let sign := if m <? 0 then "-" else "" in
  let ds := pretty (Z.abs m) in
  if e <? 0 then
    let k := Z.to_nat (- e) in
    let padded := zeros (S k - String.length ds) +:+ ds in
    let '(ip, fp) := split_at (String.length padded - k) padded in
    sign +:+ ip +:+ "." +:+ fp
  else sign +:+ ds +:+ zeros (Z.to_nat e) +:+ ".0".

Definition join (parts : list string) : string :=
  match parts with
  | [] => ""
  | p :: rest => foldl (fun acc q => acc +:+ ", " +:+ q) p rest
  end.

Fixpoint dumps (v : json) : string :=
  match v with
  | JNull => "null"
  | JBool true => "true"
  | JBool false => "false"
  | JInt z => pretty z
  | JFloat m e => print_float m e
  | JStr s => quote s
  | JList l => "[" +:+ join (map dumps l) +:+ "]"
  | JDict d =>
      "{" +:+ join (map_fold (fun k x acc => (quote k +:+ ": " +:+ dumps x) :: acc) [] d)
          +:+ "}"
  end.

Definition is_ws (c : ascii) : bool :=
  Ascii.eqb c " "%char || Ascii.eqb c newline || Ascii.eqb c tab
  || Ascii.eqb c "013"%char.

Fixpoint skip_ws (s : string) : string :=
  match s with
  | String c r => if is_ws c then skip_ws r else s
  | EmptyString => s
  end.

Definition digit_of (c : ascii) : option Z :=
  let n := Z.of_nat (nat_of_ascii c) in
  if (48 <=? n) && (n <=? 57) then Some (n - 48) else None.

(** Reads a run of digits: the number read so far, how many digits were
    read, and the rest of the text. *)
Fixpoint parse_digits (s : string) (acc count : Z) : Z * Z * string :=
  match s with
  | String c r =>
      match digit_of c with
      | Some d => parse_digits r (acc * 10 + d) (count + 1)
      | None => (acc, count, s)
      end
  | EmptyString => (acc, count, s)
  end.

Definition parse_number (s : string) : option (json * string) :=
  let '(sign, s1) :=
    match s with
    | String "-"%char r => (-1, r)
    | _ => (1, s)
    end in
  let '(ip, n, s2) := parse_digits s1 0 0 in
  if n =? 0 then None
  else match s2 with
       | String "."%char r =>
           let '(fp, k, s3) := parse_digits r ip 0 in
           if k =? 0 then None else Some (JFloat (sign * fp) (- k), s3)
       | _ => Some (JInt (sign * ip), s2)
       end.

Definition unescape (e : ascii) : option ascii :=
  if Ascii.eqb e "n"%char then Some newline
  else if Ascii.eqb e "t"%char then Some tab
  else if Ascii.eqb e dquote || Ascii.eqb e backslash || Ascii.eqb e "/"%char
       then Some e
  else None.

(** Reads the characters of a string literal after its opening quote. *)
Fixpoint parse_chars (s : string) : option (string * string) :=
  match s with
  | EmptyString => None
  | String c r =>
      if Ascii.eqb c dquote then Some (EmptyString, r)
      else if Ascii.eqb c backslash then
        match r with
        | String e r' =>
            match unescape e, parse_chars r' with
            | Some u, Some (t, rest) => Some (String u t, rest)
            | _, _ => None
            end
        | EmptyString => None
        end
      else match parse_chars r with
           | Some (t, rest) => Some (String c t, rest)
           | None => None
           end
  end.

Definition expect (word : string) (v : json) (s : string) : option (json * string) :=
  if String.prefix word s
  then Some (v, String.substring (String.length word)
                  (String.length s - String.length word) s)
  else None.

Fixpoint parse_value (fuel : nat) (s : string) : option (json * string) :=
  match fuel with
  | O => None
  | S n =>
      match skip_ws s with
      | String "{"%char r =>
          match skip_ws r with
          | String "}"%char r' => Some (JDict ∅, r')
          | _ => parse_members n r ∅
          end
      | String "["%char r =>
          match skip_ws r with
          | String "]"%char r' => Some (JList [], r')
          | _ => parse_elements n r []
          end
      | String "034"%char r =>
          match parse_chars r with
          | Some (t, rest) => Some (JStr t, rest)
          | None => None
          end
      | String "t"%char _ as w => expect "true" (JBool true) w
      | String "f"%char _ as w => expect "false" (JBool false) w
      | String "n"%char _ as w => expect "null" JNull w
      | w => parse_number w
      end
  end
with parse_elements (fuel : nat) (s : string) (acc : list json) : option (json * string) :=
  match fuel with
  | O => None
  | S n =>
      match parse_value n s with
      | Some (v, rest) =>
          match skip_ws rest with
          | String ","%char r => parse_elements n r (acc ++ [v])
          | String "]"%char r => Some (JList (acc ++ [v]), r)
          | _ => None
          end
      | None => None
      end
  end
with parse_members (fuel : nat) (s : string) (acc : gmap string json) : option (json * string) :=
  match fuel with
  | O => None
  | S n =>
      match skip_ws s with
      | String "034"%char r =>
          match parse_chars r with
          | Some (k, rest) =>
              match skip_ws rest with
              | String ":"%char r' =>
                  match parse_value n r' with
                  | Some (v, rest') =>
                      match skip_ws rest' with
                      | String ","%char r'' => parse_members n r'' (<[k := v]> acc)
                      | String "}"%char r'' => Some (JDict (<[k := v]> acc), r'')
                      | _ => None
                      end
                  | None => None
                  end
              | _ => None
              end
          | None => None
          end
      | _ => None
      end
  end.

(** A whole text: one value, then nothing but blanks. *)
Definition loads (text : string) : option json :=
  match parse_value (S (String.length text)) text with
  | Some (v, rest) =>
      match skip_ws rest with
      | EmptyString => Some v
      | _ => None
      end
  | None => None
  end.

End RefJson.

(** A sample radio, for evaluating the program: it takes strings only and
    a password of 8 to 63 characters.  The rule is this sample's, the
    program has none. *)
Definition wpa2_start_ap (ssid pw : json) : bool :=
  match ssid, pw with
  | JStr _, JStr p => (8 <=? String.length p)%nat && (String.length p <=? 63)%nat
  | _, _ => false
  end.

(** A platform to evaluate the program on: the reference codec, the WPA2
    radio, no reachable network, a web server that starts, a status LED. *)
Definition reference_platform : platform :=
  {| json_loads := RefJson.loads;
     json_dumps := RefJson.dumps;
     radio_start_ap := wpa2_start_ap;
     radio_connect := fun _ _ => false;
     web_server_start := fun _ => true;
     has_led := true |}.

(** A file system holding [text] in /config.json, without faults. *)
Definition disk (content : option string) : filesystem :=
  {| config_file := content; read_fault := false; write_behaviour := NoFault |}.

(** ** Clock geometry, colour arithmetic and the standard face

    The source of these components is not available; the definitions follow
    sections 4.1 to 4.3 of the design document.  Fractional positions and the
    brightness factor are exact rationals. *)

Module ClockGeometry.

Local Open Scope Q_scope.

Record time_of_day : Type := {
  hours : Z;
  minutes : Z;
  seconds : Z;
  fraction : Q     (* fractional seconds *)
}.

Definition valid_time (t : time_of_day) : Prop :=
  (0 <= hours t < 24)%Z /\ (0 <= minutes t < 60)%Z /\ (0 <= seconds t < 60)%Z
  /\ 0 <= fraction t /\ fraction t < 1.

(** Modelled from the spec: the hour hand of ClockGeometry, "one full
    rotation per 12 hours", which "must include the fractional contribution
    of minutes": five pixels per hour, and a sixtieth of that per minute. *)
Definition hour_position (t : time_of_day) : Q :=
  (inject_Z (hours t mod 12) + inject_Z (minutes t) / 60) * 5.

(** Modelled from the spec: the minute hand of ClockGeometry, one rotation
    per 60 minutes.  It stands on its minute: the scenario of section 8 has
    it on pixel 15 at 03:15:30. *)
Definition minute_position (t : time_of_day) : Q :=
  inject_Z (minutes t).

(** Modelled from the spec: the second hand of ClockGeometry, one rotation
    per 60 seconds, fractional seconds included. *)
Definition second_position (t : time_of_day) : Q :=
  inject_Z (seconds t) + fraction t.

(** The time of day one second later. *)
Definition next_second (t : time_of_day) : time_of_day :=
  if (seconds t <? 59)%Z then
    {| hours := hours t; minutes := minutes t; seconds := seconds t + 1;
       fraction := fraction t |}
  else if (minutes t <? 59)%Z then
    {| hours := hours t; minutes := minutes t + 1; seconds := 0;
       fraction := fraction t |}
  else
    {| hours := (hours t + 1) mod 24; minutes := 0; seconds := 0;
       fraction := fraction t |}.

(** The same hour, at another minute. *)
Definition at_minute (t : time_of_day) (m : Z) : time_of_day :=
  {| hours := hours t; minutes := m; seconds := seconds t; fraction := fraction t |}.

(** Two positions on the ring are the same pixel position when they differ
    by whole turns of 60. *)
Definition same_on_ring (a b : Q) : Prop :=
  exists k : Z, a - b == inject_Z (60 * k).

(** Modelled from the spec: "rounded to nearest integer index" (a tie goes
    up), wrapped onto the 60 pixels. *)
Definition pixel_index (pos : Q) : nat :=
  Z.to_nat (Qfloor (pos + (1 # 2)) mod NUM_PIXELS).

End ClockGeometry.

Module ColorModel.

Local Open Scope Q_scope.

Definition color : Type := Z * Z * Z.

Definition valid_color (c : color) : Prop :=
  let '(r, g, b) := c in
  (0 <= r <= 255)%Z /\ (0 <= g <= 255)%Z /\ (0 <= b <= 255)%Z.

Definition clamp (z : Z) : Z := Z.max 0 (Z.min 255 z).

(** Modelled from the spec: ColorModel's brightness scaling of one channel,
    "multiplied and clamped to [0,255], rounding down". *)
Definition scale_channel (c : Z) (factor : Q) : Z :=
  clamp (Qfloor (inject_Z c * factor)).

(** Modelled from the spec: "linear-scale an RGB triple by a brightness
    factor". *)
Definition scale (c : color) (factor : Q) : color :=
  let '(r, g, b) := c in
  (scale_channel r factor, scale_channel g factor, scale_channel b factor).

Definition channel_le (c1 c2 : color) : Prop :=
  let '(r1, g1, b1) := c1 in
  let '(r2, g2, b2) := c2 in
  (r1 <= r2)%Z /\ (g1 <= g2)%Z /\ (b1 <= b2)%Z.

End ColorModel.

Module RenderEngine.

Import ClockGeometry ColorModel.

Record palette : Type := {
  hour_color : color;
  minute_color : color;
  second_color : color;
  marker_color : color;
  background_color : color
}.

Definition frame : Type := list color.

(** [pixels[i] = c] *)
Definition paint (i : nat) (c : color) (f : frame) : frame := <[i := c]> f.

(** Modelled from the spec: the standard mode of RenderEngine.  A
    background-coloured frame; the marker colour on the 12 hour ticks, every
    5th pixel; then the hour, the minute and the second hand, in that order,
    each on its position rounded to the nearest pixel. *)
Definition render_standard (p : palette) (t : time_of_day) : frame :=
  let blank := replicate (Z.to_nat NUM_PIXELS) (background_color p) in
  let ticks := foldl (fun f k => paint (5 * k)%nat (marker_color p) f) blank (seq 0 12) in
  let with_hour := paint (pixel_index (hour_position t)) (hour_color p) ticks in
  let with_minute := paint (pixel_index (minute_position t)) (minute_color p) with_hour in
  paint (pixel_index (second_position t)) (second_color p) with_minute.

Definition red : color := (255, 0, 0).
Definition green : color := (0, 255, 0).
Definition blue : color := (0, 0, 255).
Definition black : color := (0, 0, 0).

(** The colours of the 03:15:30 scenario; it leaves the marker colour
    open. *)
Definition scenario_palette (marker : color) : palette :=
  {| hour_color := red; minute_color := green; second_color := blue;
     marker_color := marker; background_color := black |}.

Definition quarter_past_three : time_of_day :=
  {| hours := 3; minutes := 15; seconds := 30; fraction := 0 |}.

End RenderEngine.

(** ** Vocabulary of the statements *)

(** What the loop of [load_config] leaves in [config]: every default key
    is assigned the file's value when the file has the key, the default
    otherwise; the other keys of [cfg] stay. *)
Definition merge_defaults (d : gmap string json) (defaults : list (string * json))
    (cfg : gmap string json) : gmap string json :=
  foldl (fun c kv => <[kv.1 := default kv.2 (d !! kv.1)]> c) cfg defaults.

(** The value [load_config] gives the default key [kv.1] when the file
    holds the JSON value [v]. *)
Definition loaded_or_default (v : json) (kv : string * json) : json :=
  match v with
  | JDict d => default kv.2 (d !! kv.1)
  | _ => kv.2
  end.

(** A JSON object that lacks at least one configuration key. *)
Definition missing_a_key (d : gmap string json) : Prop :=
  exists k, k ∈ default_keys /\ d !! k = None.

(** A configuration whose keys are exactly those of the default set. *)
Definition has_default_keys (c : gmap string json) : Prop :=
  dom c = list_to_set default_keys.

(** The arguments [start_ap_mode] passes to the radio. *)
Definition configured_ap_ssid (st : machine) : json :=
  default (JStr "LEDClock") (config st !! "ap_ssid").

Definition configured_ap_password (st : machine) : json :=
  default (JStr "clockconfig") (config st !! "ap_password").

(** The events of [blink_led n]. *)
Definition blinks (P : platform) (n : nat) : list event :=
  if has_led P then concat (replicate n [EvLed true; EvLed false]) else [].

(** The face the standard mode shows at 03:15:30 with the scenario's
    colours: the three hands, the marker colour on the other hour ticks,
    black elsewhere. *)
Definition face_at_quarter_past_three (marker : ColorModel.color) (i : nat)
    : ColorModel.color :=
  if (i =? 16)%nat then RenderEngine.red
  else if (i =? 15)%nat then RenderEngine.green
  else if (i =? 30)%nat then RenderEngine.blue
  else if (i mod 5 =? 0)%nat then marker
  else RenderEngine.black.

(** *** Sample inputs *)

(** A stored file with one key only. *)
Definition trail_only : gmap string json := {["mode" := JStr "trail"]}.

Definition trail_only_text : string := RefJson.dumps (JDict trail_only).

(** A full configuration that differs from the defaults. *)
Definition rainbow_config : gmap string json :=
  <["mode" := JStr "rainbow"]> (<["brightness" := JFloat 75 (-2)]> DEFAULT_CONFIG_copy).

(** The default configuration with another access-point password, on a
    machine that has just started. *)
Definition with_ap_password (pw : string) : machine :=
  set_config (<["ap_password" := JStr pw]> DEFAULT_CONFIG_copy) (boot (disk None)).

Definition half_past_ten : ClockGeometry.time_of_day :=
  {| ClockGeometry.hours := 22; ClockGeometry.minutes := 30;
     ClockGeometry.seconds := 59; ClockGeometry.fraction := 1 # 4 |}.

(** ** More vocabulary *)

(** [evs] appended to the event log, nothing else touched. *)
Definition log_all (evs : list event) (st : machine) : machine :=
  {| config := config st; in_ap_mode := in_ap_mode st; pool := pool st;
     server := server st; fs := fs st; events := events st ++ evs |}.

(** The file cannot be used as a configuration: it cannot be opened, or
    its text is not JSON. *)
Definition no_usable_file (P : platform) (st : machine) : Prop :=
  read_fault (fs st) = true \/ config_file (fs st) = None
  \/ exists text, config_file (fs st) = Some text /\ json_loads P text = None.

(** The file holds a JSON object whose wifi_ssid is a true value. *)
Definition file_offers_ssid (P : platform) (st : machine) : Prop :=
  exists text d v,
    read_fault (fs st) = false /\ config_file (fs st) = Some text
    /\ json_loads P text = Some (JDict d)
    /\ d !! "wifi_ssid" = Some v /\ truthy v = true.

(** The machine [start_ap_mode] leaves when the radio accepted. *)
Definition ap_started (P : platform) (st : machine) : machine :=
  let st1 := log (EvRadioStartAp (configured_ap_ssid st) (configured_ap_password st))
               (log (EvApFlag true) (set_in_ap_mode true st)) in
  let st2 := set_server ServerCreated (set_pool true (log_all (blinks P 5) st1)) in
  if web_server_start P true
  then log EvServerStart (set_server ServerListening st2)
  else st2.


(** The reference platform with a radio that takes every password. *)
Definition open_radio_platform : platform :=
  {| json_loads := RefJson.loads;
     json_dumps := RefJson.dumps;
     radio_start_ap := fun _ _ => true;
     radio_connect := fun _ _ => false;
     web_server_start := fun _ => true;
     has_led := true |}.

(** A stored file with a key the program does not know. *)
Definition trail_and_volume : gmap string json :=
  <["volume" := JInt 3]> trail_only.

Definition trail_and_volume_text : string := RefJson.dumps (JDict trail_and_volume).

(** ** The colour conversions of the control page

    [hexToRgb] and [rgbToHex] are JavaScript, shipped inside CONTROL_HTML.
    Numbers are integers here; NaN is [None]; text is ASCII. *)

Module ControlPage.

(** ToInt32 of an integer. *)
Definition to_int32 (z : Z) : Z := (z + 2 ^ 31) mod 2 ^ 32 - 2 ^ 31.

(** [x << k] for a shift count [0 <= k < 32]. *)
Definition shl (x k : Z) : Z := to_int32 (to_int32 x * 2 ^ k).

(** The digit of a value below 16, as [toString(16)] prints it. *)
Definition hex_digit (d : Z) : ascii :=
  ascii_of_nat (Z.to_nat (if d <? 10 then 48 + d else 87 + d)).

(** The hexadecimal digits of a non-negative integer, most significant
    first; [fuel] bounds the number of digits. *)
Fixpoint hex_digits (fuel : nat) (n : Z) : string :=
  match fuel with
  | O => EmptyString
  | S f =>
      if n <? 16 then String (hex_digit n) EmptyString
      else hex_digits f (n / 16) +:+ String (hex_digit (n mod 16)) EmptyString
  end.

(** [n.toString(16)] for an integer [n]. *)
Definition toString16 (n : Z) : string :=
  if n <? 0 then String "-"%char (hex_digits (S (Z.to_nat (Z.log2 (- n)))) (- n))
  else hex_digits (S (Z.to_nat (Z.log2 n))) n.

(** [s.slice(1)] *)
Definition slice1 (s : string) : string :=
  match s with
  | String _ rest => rest
  | EmptyString => EmptyString
  end.

(** [rgbToHex(rgb)] for an array of integers.  A missing element is
    [undefined]: shifted it counts as 0, added it turns the sum into NaN,
    which prints as NaN and loses its first letter to [slice(1)]. *)
Definition rgbToHex (rgb : list Z) : string :=
  match rgb !! 2%nat with
  | Some b =>
      String "#"%char
        (slice1 (toString16 (shl 1 24 + shl (default 0 (rgb !! 0%nat)) 16
                             + shl (default 0 (rgb !! 1%nat)) 8 + b)))
  | None => "#aN"
  end.

(** The white space [parseInt] skips, as far as it is ASCII. *)
Definition is_js_space (c : ascii) : bool :=
  let n := nat_of_ascii c in
  (n =? 32)%nat || ((9 <=? n)%nat && (n <=? 13)%nat).

Fixpoint skip_space (s : string) : string :=
  match s with
  | String c r => if is_js_space c then skip_space r else s
  | EmptyString => s
  end.

(** The value of a hexadecimal digit, either case. *)
Definition hex_value (c : ascii) : option Z :=
  let n := Z.of_nat (nat_of_ascii c) in
  if (48 <=? n) && (n <=? 57) then Some (n - 48)
  else if (97 <=? n) && (n <=? 102) then Some (n - 87)
  else if (65 <=? n) && (n <=? 70) then Some (n - 55)
  else None.

(** The number the longest run of hexadecimal digits at the head of [s]
    denotes; [None] (NaN) when there is no digit. *)
Fixpoint hex_prefix (s : string) (acc : Z) (seen : bool) : option Z :=
  match s with
  | String c r =>
      match hex_value c with
      | Some d => hex_prefix r (16 * acc + d) true
      | None => if seen then Some acc else None
      end
  | EmptyString => if seen then Some acc else None
  end.

(** [parseInt(s, 16)]; [None] is NaN. *)
Definition parseInt16 (s : string) : option Z :=
  let s1 := skip_space s in
  let '(sign, s2) :=
    match s1 with
    | String "-"%char r => (-1, r)
    | String "+"%char r => (1, r)
    | _ => (1, s1)
    end in
  let s3 :=
    match s2 with
    | String "0"%char (String c r) =>
        if Ascii.eqb c "x"%char || Ascii.eqb c "X"%char then r else s2
    | _ => s2
    end in
  Z.mul sign <$> hex_prefix s3 0 false.

(** [hexToRgb(hex)] *)
Definition hexToRgb (hex : string) : list (option Z) :=
  [ parseInt16 (String.substring 1 2 hex);
    parseInt16 (String.substring 3 2 hex);
    parseInt16 (String.substring 5 2 hex) ].

Definition is_channel (c : Z) : Prop := 0 <= c <= 255.

Definition is_lower_hex (c : ascii) : bool :=
  let n := nat_of_ascii c in
  ((48 <=? n) && (n <=? 57))%nat || ((97 <=? n) && (n <=? 102))%nat.

(** A colour as [<input type=color>] reports it: a hash sign and six
    lower-case hexadecimal digits. *)
Definition is_color_value (s : string) : bool :=
  match s with
  | String "#"%char (String c1 (String c2 (String c3 (String c4 (String c5
      (String c6 EmptyString)))))) =>
      forallb is_lower_hex [c1; c2; c3; c4; c5; c6]
  | _ => false
  end.

End ControlPage.

(** * Properties *)

(** ** Examples on the reference platform *)

Example loads_trail_only : RefJson.loads trail_only_text = Some (JDict trail_only).
Proof. vm_compute. reflexivity. Qed.

Example dumps_loads_rainbow_config :
  RefJson.loads (RefJson.dumps (JDict rainbow_config)) = Some (JDict rainbow_config).
Proof. vm_compute. reflexivity. Qed.

Example loads_rejects_truncated_text :
  RefJson.loads (String.substring 0 10 trail_only_text) = None.
Proof. vm_compute. reflexivity. Qed.

Example dumps_floats :
  RefJson.dumps (JList [JFloat 2 (-1); JFloat 10 (-1); JFloat (-5) (-3); JInt (-42)])
  = "[0.2, 1.0, -0.005, -42]".
Proof. vm_compute. reflexivity. Qed.

(** ** The merge of the loaded values over the defaults *)

Lemma default_keys_NoDup : NoDup default_keys.
Proof. apply (bool_decide_unpack (NoDup default_keys)). vm_compute. exact I. Qed.

Lemma for_each_merge d l st :
  for_each l (fun kv => do v <- py_get (JDict d) kv.1 kv.2; config_setitem kv.1 v) st
  = (Ok tt, set_config (merge_defaults d l (config st)) st).
Proof.
  revert st. induction l as [|kv l IH]; intros st.
  - destruct st; reflexivity.
  - cbn [for_each]. unfold bind at 1. unfold bind at 1. cbn.
    rewrite IH. destruct st; reflexivity.
Qed.

Lemma merge_lookup_notin d l cfg k :
  k ∉ l.*1 -> merge_defaults d l cfg !! k = cfg !! k.
Proof.
  revert cfg. induction l as [|kv l IH]; intros cfg Hk; [done|].
  cbn in Hk. apply not_elem_of_cons in Hk as [Hne Hk].
  unfold merge_defaults in *. cbn. rewrite IH by done.
  by rewrite lookup_insert_ne.
Qed.

Lemma merge_lookup_in d l cfg k dv :
  NoDup l.*1 -> (k, dv) ∈ l ->
  merge_defaults d l cfg !! k = Some (default dv (d !! k)).
Proof.
  revert cfg. induction l as [|kv l IH]; intros cfg Hnd Hin.
  - by apply elem_of_nil in Hin.
  - cbn in Hnd. apply NoDup_cons in Hnd as [Hfresh Hnd].
    apply elem_of_cons in Hin as [Heq|Hin]; [subst kv; cbn in Hfresh|].
    + change (merge_defaults d l (<[k := default dv (d !! k)]> cfg) !! k
              = Some (default dv (d !! k))).
      rewrite merge_lookup_notin by done. apply lookup_insert_eq.
    + change (merge_defaults d l (<[kv.1 := default kv.2 (d !! kv.1)]> cfg) !! k
              = Some (default dv (d !! k))).
      by apply IH.
Qed.

Lemma merge_idempotent d l cfg :
  NoDup l.*1 ->
  merge_defaults d l (merge_defaults d l cfg) = merge_defaults d l cfg.
Proof.
  intros Hnd. apply map_eq. intros k.
  destruct (decide (k ∈ l.*1)) as [Hin|Hout].
  - apply list_elem_of_fmap in Hin as [[k' dv] [-> Hin]]. cbn [fst].
    by rewrite !(merge_lookup_in d l _ k' dv).
  - by rewrite !merge_lookup_notin.
Qed.

Lemma merge_self c g :
  has_default_keys c -> dom g ⊆ dom c ->
  merge_defaults c DEFAULT_CONFIG g = c.
Proof.
  intros Hc Hg. apply map_eq. intros k.
  destruct (decide (k ∈ default_keys)) as [Hin|Hout].
  - assert (Hk : is_Some (c !! k)).
    { apply elem_of_dom. rewrite Hc. by apply elem_of_list_to_set. }
    destruct Hk as [v Hv].
    apply list_elem_of_fmap in Hin as [[k' dv] [-> Hin]]. cbn [fst] in *.
    rewrite (merge_lookup_in c DEFAULT_CONFIG _ k' dv default_keys_NoDup Hin).
    by rewrite Hv.
  - rewrite merge_lookup_notin by done.
    assert (Hk : k ∉ dom c) by (rewrite Hc; by rewrite elem_of_list_to_set).
    assert (Hk' : k ∉ dom g) by (intros Hin; apply Hk; by apply Hg).
    apply not_elem_of_dom in Hk, Hk'. by rewrite Hk, Hk'.
Qed.

Lemma default_copy_lookup k dv :
  (k, dv) ∈ DEFAULT_CONFIG -> DEFAULT_CONFIG_copy !! k = Some dv.
Proof.
  intros Hin. apply elem_of_list_to_map_1; [apply default_keys_NoDup | done].
Qed.

Lemma default_copy_has_keys :
  Forall (fun k => is_Some (DEFAULT_CONFIG_copy !! k)) default_keys.
Proof.
  apply Forall_forall. intros k Hk.
  apply list_elem_of_fmap in Hk as [[k' dv] [-> Hin]]. cbn [fst].
  rewrite (default_copy_lookup k' dv Hin). eauto.
Qed.

(** ** What [save_config] and [load_config] do, path by path *)

Section Store.

Context (P : platform).

Lemma save_config_config st : config (save_config P st).2 = config st.
Proof.
  unfold save_config, try_except, bind, open_write, file_write, gets, ret.
  destruct st as [c a p s [f r w] e]; cbn. destruct w; reflexivity.
Qed.

Lemma save_config_returns st : exists b, (save_config P st).1 = Ok b.
Proof.
  unfold save_config, try_except, bind, open_write, file_write, gets, ret.
  destruct st as [c a p s [f r w] e]; cbn. destruct w; eauto.
Qed.

(** A save on a faultless file system writes the dump of [config]. *)
Lemma save_config_ok st :
  write_behaviour (fs st) = NoFault ->
  save_config P st
  = (Ok true, log (EvFileWrite (json_dumps P (JDict (config st))))
                (set_file (Some (json_dumps P (JDict (config st)))) st)).
Proof.
  unfold save_config, try_except, bind, open_write, file_write, gets, ret.
  destruct st as [c a p s [f r w] e]; cbn. intros ->. reflexivity.
Qed.

(** A save on read-only storage reports failure and changes nothing. *)
Lemma save_config_read_only st :
  write_behaviour (fs st) = OpenFault -> save_config P st = (Ok false, st).
Proof.
  unfold save_config, try_except, bind, open_write, file_write, gets, ret.
  destruct st as [c a p s [f r w] e]; cbn. intros ->. reflexivity.
Qed.

(** The file holds a JSON object: the merge, and nothing else. *)
Lemma load_config_dict st text d :
  read_fault (fs st) = false -> config_file (fs st) = Some text ->
  json_loads P text = Some (JDict d) ->
  load_config P st = (Ok tt, set_config (merge_defaults d DEFAULT_CONFIG (config st)) st).
Proof.
  intros Hr Hf Hl. unfold load_config, try_except.
  unfold bind at 1. unfold open_read. rewrite Hr, Hf.
  unfold bind at 1. unfold loads. rewrite Hl. unfold ret at 1.
  by rewrite for_each_merge.
Qed.

(** The file holds JSON that is no object: [.get] raises AttributeError,
    the outer handler installs the defaults and does not save. *)
Lemma load_config_not_dict st text v :
  read_fault (fs st) = false -> config_file (fs st) = Some text ->
  json_loads P text = Some v -> (forall d, v <> JDict d) ->
  load_config P st = (Ok tt, set_config DEFAULT_CONFIG_copy st).
Proof.
  intros Hr Hf Hl Hv. unfold load_config, try_except.
  unfold bind at 1. unfold open_read. rewrite Hr, Hf.
  unfold bind at 1. unfold loads. rewrite Hl. unfold ret at 1.
  destruct v; try reflexivity. by destruct (Hv d).
Qed.

(** No file, an unreadable file or malformed text: the defaults, and an
    attempt to save them. *)
Lemma load_config_fallback st :
  (read_fault (fs st) = true \/ config_file (fs st) = None
   \/ exists text, config_file (fs st) = Some text /\ json_loads P text = None) ->
  load_config P st = (Ok tt, (save_config P (set_config DEFAULT_CONFIG_copy st)).2).
Proof.
  intros H.
  unfold load_config, save_config, try_except, bind, open_read, loads, modify,
    ret, raise, open_write, file_write, gets.
  destruct st as [c a p s [f r w] e]; cbn in *.
  destruct H as [->|[->|(t & -> & Hl)]]; [| destruct r | destruct r];
    rewrite ?Hl; destruct w; reflexivity.
Qed.

Lemma load_config_cases st :
  (exists text d, read_fault (fs st) = false /\ config_file (fs st) = Some text
                  /\ json_loads P text = Some (JDict d))
  \/ (exists text v, read_fault (fs st) = false /\ config_file (fs st) = Some text
                  /\ json_loads P text = Some v /\ forall d, v <> JDict d)
  \/ (read_fault (fs st) = true \/ config_file (fs st) = None
      \/ exists text, config_file (fs st) = Some text /\ json_loads P text = None).
Proof.
  destruct (read_fault (fs st)) eqn:Hr; [by right; right; left|].
  destruct (config_file (fs st)) as [text|] eqn:Hf; [|by right; right; right; left].
  destruct (json_loads P text) as [v|] eqn:Hl; [|right; right; right; right; eauto].
  destruct v; try (right; left; exists text; eexists; repeat split; eauto; congruence).
  left. eauto.
Qed.

End Store.

(** ** The configuration store *)

(** A machine that starts without a file gets the defaults and writes
    them out. *)
Example load_config_absent_file :
  let st := (load_config reference_platform (boot (disk None))).2 in
  config st = DEFAULT_CONFIG_copy
  /\ config_file (fs st) = Some (RefJson.dumps (JDict DEFAULT_CONFIG_copy))
  /\ events st = [EvFileWrite (RefJson.dumps (JDict DEFAULT_CONFIG_copy))].
Proof.
  cbv zeta.
  rewrite (load_config_fallback reference_platform (boot (disk None)))
    by (right; left; reflexivity).
  rewrite (save_config_ok reference_platform
             (set_config DEFAULT_CONFIG_copy (boot (disk None))) eq_refl).
  repeat split; reflexivity.
Qed.

(** A file that holds a JSON array: the defaults, and no save. *)
Example load_config_array_file :
  let st := (load_config reference_platform (boot (disk (Some "[1, 2]")))).2 in
  config st = DEFAULT_CONFIG_copy
  /\ config_file (fs st) = Some "[1, 2]"
  /\ events st = [].
Proof.
  cbv zeta.
  rewrite (load_config_not_dict reference_platform (boot (disk (Some "[1, 2]")))
             "[1, 2]" (JList [JInt 1; JInt 2]) eq_refl eq_refl);
    [repeat split; reflexivity | vm_compute; reflexivity | discriminate].
Qed.

(** C1, as amended: when the persisted file parses as JSON, [load_config]
    gives every key of the default set a value in the global configuration,
    the file's value where the file is an object that has the key and the
    default otherwise; it does not save: the file system is left as it was
    and nothing is written. *)
Theorem load_config_fills_without_saving P st text v :
  read_fault (fs st) = false ->
  config_file (fs st) = Some text ->
  json_loads P text = Some v ->
  let st' := (load_config P st).2 in
  Forall (fun kv => config st' !! kv.1 = Some (loaded_or_default v kv)) DEFAULT_CONFIG
  /\ fs st' = fs st
  /\ events st' = events st.
Proof.
  intros Hr Hf Hl st'. subst st'.
  assert (Hother : (forall d, v <> JDict d) ->
    Forall (fun kv => config (load_config P st).2 !! kv.1 = Some (loaded_or_default v kv))
      DEFAULT_CONFIG
    /\ fs (load_config P st).2 = fs st /\ events (load_config P st).2 = events st).
  { intros Hv. rewrite (load_config_not_dict P st text v Hr Hf Hl Hv).
    split; [|done]. apply Forall_forall. intros [k dv] Hin.
    cbn [fst snd config set_config].
    rewrite (default_copy_lookup k dv Hin). by destruct v; try done; destruct (Hv d). }
  destruct v as [| | | | | |d]; try (apply Hother; congruence).
  rewrite (load_config_dict P st text d Hr Hf Hl). split; [|done].
  apply Forall_forall. intros [k dv] Hin. cbn [fst snd config set_config].
  apply (merge_lookup_in d DEFAULT_CONFIG _ k dv default_keys_NoDup Hin).
Qed.

Lemma load_config_fills_without_saving_witness :
  let st := boot (disk (Some trail_only_text)) in
  let st' := (load_config reference_platform st).2 in
  Forall (fun kv => config st' !! kv.1 = Some (loaded_or_default (JDict trail_only) kv))
    DEFAULT_CONFIG
  /\ fs st' = fs st
  /\ events st' = events st.
Proof.
  apply (load_config_fills_without_saving reference_platform
           (boot (disk (Some trail_only_text))) trail_only_text (JDict trail_only)).
  - reflexivity.
  - reflexivity.
  - exact loads_trail_only.
Defined.

(** C1, as stated, fails: a file that holds only the key mode parses as
    a JSON object and misses keys, yet loading it writes nothing, so no save
    of the merged configuration is part of the load. *)
Lemma load_config_persists_counterexample :
  ~ (forall (P : platform) (st : machine) (text : string) (d : gmap string json),
       read_fault (fs st) = false ->
       config_file (fs st) = Some text ->
       json_loads P text = Some (JDict d) ->
       missing_a_key d ->
       let st' := (load_config P st).2 in
       EvFileWrite (json_dumps P (JDict (config st'))) ∈ events st').
Proof.
  intros H.
  specialize (H reference_platform (boot (disk (Some trail_only_text)))
                trail_only_text trail_only eq_refl eq_refl loads_trail_only).
  assert (Hmiss : missing_a_key trail_only).
  { exists "brightness". split; [|reflexivity].
    apply (bool_decide_unpack ("brightness" ∈ default_keys)). vm_compute. exact I. }
  specialize (H Hmiss). cbv zeta in H.
  rewrite (load_config_dict reference_platform (boot (disk (Some trail_only_text)))
             trail_only_text trail_only eq_refl eq_refl loads_trail_only) in H.
  cbn in H. by apply elem_of_nil in H.
Qed.

(** C4: for every configuration [c] that has exactly the keys of the
    default set, a [save_config] of [c] on working storage succeeds, and a
    [load_config] after it yields [c] again, whether the load runs in the
    same session or after a restart (any prior [config] over the same keys).
    The codec is assumed to read back what it printed for [c]. *)
Theorem save_then_load_round_trip P st g :
  has_default_keys (config st) ->
  write_behaviour (fs st) = NoFault ->
  read_fault (fs st) = false ->
  json_loads P (json_dumps P (JDict (config st))) = Some (JDict (config st)) ->
  dom g ⊆ dom (config st) ->
  let saved := save_config P st in
  saved.1 = Ok true
  /\ config (load_config P (set_config g saved.2)).2 = config st.
Proof.
  intros Hc Hw Hr Hl Hg saved. unfold saved.
  rewrite (save_config_ok P st Hw). split; [done|]. cbn [snd].
  rewrite (load_config_dict P _ (json_dumps P (JDict (config st))) (config st));
    [|by destruct st as [c a p s [f r w] e]..|done].
  cbn [snd config set_config]. by apply merge_self.
Qed.

Lemma rainbow_config_keys : has_default_keys rainbow_config.
Proof.
  apply (bool_decide_unpack (dom rainbow_config = list_to_set default_keys)).
  vm_compute. exact I.
Qed.

Lemma save_then_load_round_trip_witness :
  let st := set_config rainbow_config (boot (disk None)) in
  let saved := save_config reference_platform st in
  saved.1 = Ok true
  /\ config (load_config reference_platform (set_config ∅ saved.2)).2 = rainbow_config.
Proof.
  apply (save_then_load_round_trip reference_platform
           (set_config rainbow_config (boot (disk None))) ∅).
  - exact rainbow_config_keys.
  - reflexivity.
  - reflexivity.
  - exact dumps_loads_rainbow_config.
  - apply empty_subseteq.
Defined.

(** C5: [load_config] always returns, and after it the global
    configuration has every key of the default set, whatever the state of
    the file: present, missing keys, malformed, no JSON object, absent or
    unreadable, and whether or not the defaults could be written. *)
Theorem load_config_fully_populated P st :
  (load_config P st).1 = Ok tt
  /\ Forall (fun k => is_Some (config (load_config P st).2 !! k)) default_keys.
Proof.
  destruct (load_config_cases P st)
    as [(text & d & Hr & Hf & Hl)|[(text & v & Hr & Hf & Hl & Hv)|Hbad]].
  - rewrite (load_config_dict P st text d Hr Hf Hl). split; [done|].
    apply Forall_forall. intros k Hk.
    apply list_elem_of_fmap in Hk as [[k' dv] [-> Hin]].
    cbn [fst snd config set_config].
    rewrite (merge_lookup_in d DEFAULT_CONFIG _ k' dv default_keys_NoDup Hin). eauto.
  - rewrite (load_config_not_dict P st text v Hr Hf Hl Hv). split; [done|].
    apply default_copy_has_keys.
  - rewrite (load_config_fallback P st Hbad). split; [done|].
    cbn [snd]. rewrite save_config_config. apply default_copy_has_keys.
Qed.

(** C6: for a file that holds a JSON object, whichever keys it lacks, two
    loads in a row leave the same configuration, and every default key the
    file has keeps the file's value after the first load and after the
    second; the file itself is not touched. *)
Theorem load_config_twice P st text d :
  read_fault (fs st) = false ->
  config_file (fs st) = Some text ->
  json_loads P text = Some (JDict d) ->
  let st1 := (load_config P st).2 in
  let st2 := (load_config P st1).2 in
  config st2 = config st1
  /\ (forall k v, k ∈ default_keys -> d !! k = Some v ->
        config st1 !! k = Some v /\ config st2 !! k = Some v)
  /\ fs st2 = fs st.
Proof.
  intros Hr Hf Hl st1 st2.
  assert (E1 : st1 = set_config (merge_defaults d DEFAULT_CONFIG (config st)) st).
  { unfold st1. by rewrite (load_config_dict P st text d Hr Hf Hl). }
  assert (E2 : st2 = set_config (merge_defaults d DEFAULT_CONFIG (config st1)) st1).
  { unfold st2. rewrite (load_config_dict P st1 text d); [done| | |done];
      by rewrite E1. }
  assert (Hsame : config st2 = config st1).
  { rewrite E2. cbn [config set_config]. rewrite E1. cbn [config set_config].
    apply merge_idempotent, default_keys_NoDup. }
  split; [done|]. split; [|by rewrite E2, E1].
  intros k v Hk Hd. rewrite Hsame.
  apply list_elem_of_fmap in Hk as [[k' dv] [-> Hin]]. cbn [fst] in *.
  rewrite E1. cbn [config set_config].
  rewrite (merge_lookup_in d DEFAULT_CONFIG _ k' dv default_keys_NoDup Hin).
  by rewrite Hd.
Qed.

Lemma load_config_twice_witness :
  let st := boot (disk (Some trail_only_text)) in
  let st1 := (load_config reference_platform st).2 in
  let st2 := (load_config reference_platform st1).2 in
  config st2 = config st1
  /\ (forall k v, k ∈ default_keys -> trail_only !! k = Some v ->
        config st1 !! k = Some v /\ config st2 !! k = Some v)
  /\ fs st2 = fs st.
Proof.
  apply (load_config_twice reference_platform (boot (disk (Some trail_only_text)))
           trail_only_text trail_only).
  - reflexivity.
  - reflexivity.
  - exact loads_trail_only.
Defined.

Example load_config_keeps_mode :
  config (load_config reference_platform (boot (disk (Some trail_only_text)))).2 !! "mode"
  = Some (JStr "trail").
Proof. vm_compute. reflexivity. Qed.

(** ** The access point *)

Ltac unfold_ap :=
  unfold start_ap_mode, try_except, bind, config_get, wifi_radio_start_ap, blink_led,
    serve, modify, gets, ret, raise, for_each.

(** The radio refuses: one call, then the handler. *)
Lemma start_ap_mode_refused P st :
  radio_start_ap P (configured_ap_ssid st) (configured_ap_password st) = false ->
  start_ap_mode P st
  = (Ok false,
     log (EvRadioStartAp (configured_ap_ssid st) (configured_ap_password st))
       (log (EvApFlag true) (set_in_ap_mode true st))).
Proof.
  intros H. unfold_ap. unfold configured_ap_ssid, configured_ap_password in H.
  destruct st as [c a p s f e]; cbn in *. rewrite H. reflexivity.
Qed.

(** The radio accepts: the result is that of the web server. *)
Lemma start_ap_mode_accepted P st :
  radio_start_ap P (configured_ap_ssid st) (configured_ap_password st) = true ->
  exists st',
    start_ap_mode P st = (Ok (web_server_start P true), st')
    /\ in_ap_mode st' = true
    /\ events st' = events st ++
         [EvApFlag true;
          EvRadioStartAp (configured_ap_ssid st) (configured_ap_password st)]
         ++ blinks P 5 ++ (if web_server_start P true then [EvServerStart] else []).
Proof.
  intros H. unfold_ap. unfold configured_ap_ssid, configured_ap_password, blinks in *.
  destruct st as [c a p s f e]; cbn in *. rewrite H.
  destruct (has_led P), (web_server_start P true); cbn;
    eexists; (split; [reflexivity|]); (split; [reflexivity|]); cbn;
    rewrite <- ?app_assoc; reflexivity.
Qed.




(** Nor does a short password fail by itself: on a radio that takes every
    password, 7 characters are handed over as they are and give True. *)
Example start_ap_mode_open_radio :
  let r := start_ap_mode open_radio_platform (with_ap_password "1234567") in
  r.1 = Ok true
  /\ filter is_radio_start_ap (events r.2)
     = [EvRadioStartAp (JStr "LEDClock") (JStr "1234567")].
Proof. vm_compute. split; reflexivity. Qed.

(** C10: every call of [start_ap_mode] assigns True to [in_ap_mode] before
    it calls the radio, and returns with the flag still True; it returns
    True only when the radio and the web server both came up, so after a
    refused access point the result is False and the flag is True. *)
Theorem start_ap_mode_flag P st :
  let ssid := configured_ap_ssid st in
  let pw := configured_ap_password st in
  let r := start_ap_mode P st in
  in_ap_mode r.2 = true
  /\ r.1 = Ok (radio_start_ap P ssid pw && web_server_start P true)
  /\ exists rest,
       events r.2 = events st ++ EvApFlag true :: EvRadioStartAp ssid pw :: rest.
Proof.
  intros ssid pw r. subst ssid pw r.
  destruct (radio_start_ap P (configured_ap_ssid st) (configured_ap_password st)) eqn:Hr.
  - destruct (start_ap_mode_accepted P st Hr) as (st' & -> & Hflag & Hev).
    cbn [fst snd]. repeat split; [done|]. rewrite Hev. eauto.
  - rewrite (start_ap_mode_refused P st Hr). cbn [fst snd].
    repeat split. exists []. destruct st; cbn. by rewrite <- app_assoc.
Qed.

(** A password of 7 characters on the reference platform: False, the flag
    set, and the radio called once with the 7 characters. *)
Example start_ap_mode_short_password :
  let r := start_ap_mode reference_platform (with_ap_password "1234567") in
  r.1 = Ok false
  /\ in_ap_mode r.2 = true
  /\ events r.2 = [EvApFlag true; EvRadioStartAp (JStr "LEDClock") (JStr "1234567")].
Proof. vm_compute. repeat split; reflexivity. Qed.

(** ** Start-up of the connectivity manager *)

Lemma try_connect_wifi_no_ssid P st :
  truthy (default JNull (config st !! "wifi_ssid")) = false ->
  try_connect_wifi P st = (Ok false, st).
Proof.
  intros H. unfold try_connect_wifi, bind, config_get, gets. cbn.
  rewrite H. reflexivity.
Qed.

Lemma connectivity_startup_no_ssid P st :
  truthy (default JNull (config st !! "wifi_ssid")) = false ->
  (connectivity_startup P st).2 = (start_ap_mode P st).2.
Proof.
  intros H. unfold connectivity_startup, bind.
  rewrite (try_connect_wifi_no_ssid P st H).
  destruct (start_ap_mode P st) as [[b|e] s]; reflexivity.
Qed.

(** C3: when the configured wifi_ssid is the empty string, the start-up
    goes from Disconnected to APMode and visits no other state; the radio is
    never asked to connect as a client. *)
Theorem empty_ssid_goes_straight_to_ap P st :
  config st !! "wifi_ssid" = Some (JStr "") ->
  events st = [] ->
  let st' := (connectivity_startup P st).2 in
  history (events st') = [Disconnected; APMode]
  /\ filter is_radio_connect (events st') = []
  /\ in_ap_mode st' = true.
Proof.
  intros Hssid Hev st'. subst st'.
  rewrite connectivity_startup_no_ssid by (by rewrite Hssid).
  destruct (radio_start_ap P (configured_ap_ssid st) (configured_ap_password st)) eqn:Hr.
  - destruct (start_ap_mode_accepted P st Hr) as (st' & -> & Hflag & Hevents).
    cbn [fst snd]. rewrite Hevents, Hev. unfold blinks.
    split; [|split; [|exact Hflag]];
      destruct (has_led P), (web_server_start P true); reflexivity.
  - rewrite (start_ap_mode_refused P st Hr). cbn. rewrite Hev. done.
Qed.

Lemma empty_ssid_goes_straight_to_ap_witness :
  let st' := (connectivity_startup reference_platform
                (set_config DEFAULT_CONFIG_copy (boot (disk None)))).2 in
  history (events st') = [Disconnected; APMode]
  /\ filter is_radio_connect (events st') = []
  /\ in_ap_mode st' = true.
Proof.
  apply (empty_ssid_goes_straight_to_ap reference_platform
           (set_config DEFAULT_CONFIG_copy (boot (disk None)))).
  - reflexivity.
  - reflexivity.
Defined.

(** With an SSID configured the manager does pass through
    ConnectingClient; here the network is out of reach, so it falls back. *)
Example configured_ssid_tries_the_client :
  let st := set_config (<["wifi_ssid" := JStr "home"]> DEFAULT_CONFIG_copy)
              (boot (disk None)) in
  history (events (connectivity_startup reference_platform st).2)
  = [Disconnected; ConnectingClient; APMode].
Proof. vm_compute. reflexivity. Qed.

(** ** The standard face *)

Import ClockGeometry ColorModel RenderEngine.

(** C7, as amended: in standard mode at 03:15:30 with the scenario's
    colours, the hour hand is on pixel 16, the minute hand on pixel 15 and
    the second hand on pixel 30, red, green and blue; pixels 15 and 30 are
    hour ticks and show the hand, not the marker; the ten other hour ticks
    show the marker colour, and every remaining pixel is black. *)
Theorem standard_face_quarter_past_three marker :
  pixel_index (hour_position quarter_past_three) = 16%nat
  /\ pixel_index (minute_position quarter_past_three) = 15%nat
  /\ pixel_index (second_position quarter_past_three) = 30%nat
  /\ render_standard (scenario_palette marker) quarter_past_three
     = map (face_at_quarter_past_three marker) (seq 0 60).
Proof. repeat split; reflexivity. Qed.

(** C7, as stated, fails: with the default marker colour (32, 32, 32)
    pixel 0 is an hour tick away from the three hands, and it is not
    black. *)
Lemma standard_face_black_elsewhere_counterexample :
  ~ (forall (marker : color) (i : nat),
       (i < 60)%nat -> i <> 16%nat -> i <> 15%nat -> i <> 30%nat ->
       render_standard (scenario_palette marker) quarter_past_three !! i = Some black).
Proof.
  intros H. specialize (H (32, 32, 32) 0%nat).
  vm_compute in H.
  assert (Hc : Some (32, 32, 32) = Some (0, 0, 0)).
  { apply H; [lia | discriminate..]. }
  discriminate Hc.
Qed.

(** With a black marker colour the frame of the scenario is black outside
    the three hands. *)
Example standard_face_black_marker :
  filter (fun c => bool_decide (c <> black))
    (render_standard (scenario_palette black) quarter_past_three)
  = [green; red; blue].
Proof. vm_compute. reflexivity. Qed.

(** ** Colour scaling *)

Section Scale.

Local Open Scope Q_scope.

Lemma clamp_mono a b : (a <= b)%Z -> (clamp a <= clamp b)%Z.
Proof. unfold clamp. lia. Qed.

Lemma clamp_range a : (0 <= clamp a <= 255)%Z.
Proof. unfold clamp. lia. Qed.

Lemma clamp_id a : (0 <= a <= 255)%Z -> clamp a = a.
Proof. unfold clamp. lia. Qed.

Lemma floor_mul_zero c : Qfloor (inject_Z c * 0) = 0%Z.
Proof. unfold Qfloor, Qmult, inject_Z. cbn. rewrite Z.mul_0_r. reflexivity. Qed.

Lemma floor_mul_one c : Qfloor (inject_Z c * 1) = c.
Proof.
  unfold Qfloor, Qmult, inject_Z. cbn. rewrite Z.mul_1_r, Z.div_1_r. reflexivity.
Qed.

Lemma floor_mul_mono c f1 f2 :
  (0 <= c)%Z -> f1 <= f2 -> (Qfloor (inject_Z c * f1) <= Qfloor (inject_Z c * f2))%Z.
Proof.
  intros Hc Hf. apply Qfloor_resp_le.
  rewrite !(Qmult_comm (inject_Z c)). apply Qmult_le_compat_r; [done|].
  change 0 with (inject_Z 0). by rewrite <- Zle_Qle.
Qed.

Lemma scale_channel_zero c : scale_channel c 0 = 0%Z.
Proof. unfold scale_channel. by rewrite floor_mul_zero. Qed.

Lemma scale_channel_one c : (0 <= c <= 255)%Z -> scale_channel c 1 = c.
Proof. intros H. unfold scale_channel. rewrite floor_mul_one. by apply clamp_id. Qed.

Lemma scale_channel_mono c f1 f2 :
  (0 <= c)%Z -> f1 <= f2 -> (scale_channel c f1 <= scale_channel c f2)%Z.
Proof. intros Hc Hf. unfold scale_channel. by apply clamp_mono, floor_mul_mono. Qed.

(** For a factor in [0,1] the clamp is idle and the channel is the
    product rounded down. *)
Lemma scale_channel_floor c f :
  (0 <= c <= 255)%Z -> 0 <= f -> f <= 1 ->
  scale_channel c f = Qfloor (inject_Z c * f)
  /\ inject_Z (scale_channel c f) <= inject_Z c * f
  /\ inject_Z c * f < inject_Z (scale_channel c f) + 1.
Proof.
  intros Hc H0 H1.
  assert (E : scale_channel c f = Qfloor (inject_Z c * f)).
  { unfold scale_channel. apply clamp_id.
    assert (L := floor_mul_mono c 0 f ltac:(lia) H0).
    assert (U := floor_mul_mono c f 1 ltac:(lia) H1).
    rewrite floor_mul_zero in L. rewrite floor_mul_one in U. lia. }
  rewrite E. split; [done|]. split; [apply Qfloor_le|].
  assert (Hlt := Qlt_floor (inject_Z c * f)).
  rewrite inject_Z_plus in Hlt. exact Hlt.
Qed.

(** C9: for every RGB colour with channels in [0,255], scaling by 0 gives
    the all-zero colour, scaling by 1 gives the colour back, each channel of
    a scaled colour is the product with the factor, rounded down and clamped
    to [0,255], and a larger factor gives channels that are no smaller. *)
Theorem scale_brightness r g b f1 f2 :
  valid_color (r, g, b) -> f1 <= f2 ->
  scale (r, g, b) 0 = (0, 0, 0)%Z
  /\ scale (r, g, b) 1 = (r, g, b)
  /\ scale (r, g, b) f1
     = (clamp (Qfloor (inject_Z r * f1)), clamp (Qfloor (inject_Z g * f1)),
        clamp (Qfloor (inject_Z b * f1)))
  /\ valid_color (scale (r, g, b) f1)
  /\ channel_le (scale (r, g, b) f1) (scale (r, g, b) f2).
Proof.
  intros (Hr & Hg & Hb) Hf. unfold scale.
  rewrite !scale_channel_zero, !scale_channel_one by done.
  repeat split; try reflexivity; try apply clamp_range;
    apply scale_channel_mono; (lia || done).
Qed.

Lemma scale_brightness_witness :
  scale (200, 100, 7)%Z 0 = (0, 0, 0)%Z
  /\ scale (200, 100, 7)%Z 1 = (200, 100, 7)%Z
  /\ scale (200, 100, 7)%Z (1 # 5)
     = (clamp (Qfloor (inject_Z 200 * (1 # 5))), clamp (Qfloor (inject_Z 100 * (1 # 5))),
        clamp (Qfloor (inject_Z 7 * (1 # 5))))
  /\ valid_color (scale (200, 100, 7)%Z (1 # 5))
  /\ channel_le (scale (200, 100, 7)%Z (1 # 5)) (scale (200, 100, 7)%Z (1 # 2)).
Proof.
  apply (scale_brightness 200 100 7 (1 # 5) (1 # 2)).
  - cbn. lia.
  - unfold Qle. cbn. lia.
Defined.

Example scale_by_a_fifth : scale (200, 100, 7)%Z (1 # 5) = (40, 20, 1)%Z.
Proof. reflexivity. Qed.

End Scale.

(** ** Clock geometry *)

Section Geometry.

Local Open Scope Q_scope.

(** C8: for every time of day, one second later the second hand stands
    exactly one pixel further on the ring of 60; and within an hour the hour
    hand moves with the minutes, a twelfth of a pixel per minute: it is
    strictly further at a later minute, and it stays inside the five pixels
    of its hour, so it never wraps or jumps there. *)
Theorem positions_continuous t m m' :
  valid_time t -> (0 <= m)%Z -> (m < m')%Z -> (m' < 60)%Z ->
  same_on_ring (second_position (next_second t)) (second_position t + 1)
  /\ hour_position (at_minute t m) < hour_position (at_minute t m')
  /\ hour_position (at_minute t m') - hour_position (at_minute t m)
     == inject_Z (m' - m) / 12
  /\ inject_Z (5 * (hours t mod 12)) <= hour_position (at_minute t m)
  /\ hour_position (at_minute t m') < inject_Z (5 * (hours t mod 12) + 5).
Proof.
  intros (Hh & Hm & Hs & Hf0 & Hf1) H0 Hlt H60.
  split.
  { unfold same_on_ring, second_position, next_second.
    destruct (Z.ltb_spec (seconds t) 59).
    - exists 0%Z. cbn [seconds fraction]. rewrite inject_Z_plus.
      change (inject_Z 1) with 1. change (inject_Z (60 * 0)) with 0. ring.
    - assert (E : seconds t = 59%Z) by lia. rewrite E.
      exists (-1)%Z. change (inject_Z (60 * -1)) with (- (60)).
      change (inject_Z 59) with 59.
      destruct (minutes t <? 59)%Z; cbn [seconds fraction];
        change (inject_Z 0) with 0; ring. }
  unfold hour_position, at_minute. cbn [hours minutes].
  set (h := (hours t mod 12)%Z).
  repeat split.
  - unfold Qlt. cbn. lia.
  - unfold Z.sub. rewrite inject_Z_plus, inject_Z_opp. field.
  - unfold Qle. cbn. lia.
  - unfold Qlt. cbn. lia.
Qed.

Lemma positions_continuous_witness :
  same_on_ring (second_position (next_second half_past_ten))
    (second_position half_past_ten + 1)
  /\ hour_position (at_minute half_past_ten 10) < hour_position (at_minute half_past_ten 40)
  /\ hour_position (at_minute half_past_ten 40) - hour_position (at_minute half_past_ten 10)
     == inject_Z (40 - 10) / 12
  /\ inject_Z (5 * (hours half_past_ten mod 12)) <= hour_position (at_minute half_past_ten 10)
  /\ hour_position (at_minute half_past_ten 40)
     < inject_Z (5 * (hours half_past_ten mod 12) + 5).
Proof.
  apply (positions_continuous half_past_ten 10 40).
  - unfold valid_time, Qle, Qlt. cbn. lia.
  - lia.
  - lia.
  - lia.
Defined.

(** At 22:30:59 and a quarter the second hand is at 59.25; a second later
    the minute turns over and the hand is at 0.25. *)
Example second_hand_wraps :
  second_position half_past_ten == 237 # 4
  /\ second_position (next_second half_past_ten) == 1 # 4
  /\ minutes (next_second half_past_ten) = 31%Z.
Proof. repeat split. Qed.

End Geometry.

(** * Further properties of the program *)

(** ** The status LED *)

Lemma log_all_nil st : log_all [] st = st.
Proof. destruct st; unfold log_all; cbn. by rewrite app_nil_r. Qed.

Lemma log_all_log e evs st : log_all evs (log e st) = log_all (e :: evs) st.
Proof. destruct st; unfold log_all, log; cbn. by rewrite <- app_assoc. Qed.

Lemma blink_loop (l : list nat) st :
  for_each l (fun _ => run modify (log (EvLed true)); modify (log (EvLed false))) st
  = (Ok tt, log_all (concat (replicate (length l) [EvLed true; EvLed false])) st).
Proof.
  revert st. induction l as [|x l IH]; intros st.
  - cbn. by rewrite log_all_nil.
  - cbn [for_each]. unfold bind at 1. unfold bind at 1. unfold modify at 1 2.
    rewrite IH. cbn [length replicate concat]. by rewrite !log_all_log.
Qed.

(** ** Saving *)


(** ** Loading *)

Lemma merge_dom d l cfg :
  dom (merge_defaults d l cfg) = list_to_set l.*1 ∪ dom cfg.
Proof.
  revert cfg. induction l as [|kv l IH]; intros cfg.
  - cbn. by rewrite (left_id_L ∅ (∪)).
  - change (merge_defaults d (kv :: l) cfg)
      with (merge_defaults d l (<[kv.1 := default kv.2 (d !! kv.1)]> cfg)).
    rewrite IH, dom_insert_L. cbn [fmap list_fmap list_to_set foldr].
    rewrite (assoc_L (∪)). f_equal. apply (comm_L (∪)).
Qed.

Lemma default_copy_dom : dom DEFAULT_CONFIG_copy = list_to_set default_keys.
Proof.
  apply (bool_decide_unpack (dom DEFAULT_CONFIG_copy = list_to_set default_keys)).
  vm_compute. exact I.
Qed.

Example loads_trail_and_volume :
  RefJson.loads trail_and_volume_text = Some (JDict trail_and_volume).
Proof. vm_compute. reflexivity. Qed.

Example dumps_loads_defaults :
  RefJson.loads (RefJson.dumps (JDict DEFAULT_CONFIG_copy)) = Some (JDict DEFAULT_CONFIG_copy).
Proof. vm_compute. reflexivity. Qed.

(** X3: when the configuration in memory has no key outside the default
    set (as right after start, where it is empty), [load_config] leaves it
    with exactly the keys of the default set, whatever the file holds: a key
    of the file that the program does not know is dropped. *)
Theorem load_config_exact_keys P st :
  dom (config st) ⊆ list_to_set default_keys ->
  has_default_keys (config (load_config P st).2).
Proof.
  intros Hdom. unfold has_default_keys.
  destruct (load_config_cases P st)
    as [(text & d & Hr & Hf & Hl)|[(text & v & Hr & Hf & Hl & Hv)|Hbad]].
  - rewrite (load_config_dict P st text d Hr Hf Hl). cbn [snd config set_config].
    rewrite merge_dom. fold default_keys.
    rewrite (comm_L (∪)). by apply subseteq_union_1_L.
  - rewrite (load_config_not_dict P st text v Hr Hf Hl Hv). apply default_copy_dom.
  - rewrite (load_config_fallback P st Hbad). cbn [snd].
    rewrite save_config_config. apply default_copy_dom.
Qed.

Lemma load_config_exact_keys_witness :
  has_default_keys
    (config (load_config reference_platform
               (boot (disk (Some trail_and_volume_text)))).2).
Proof.
  apply (load_config_exact_keys reference_platform
           (boot (disk (Some trail_and_volume_text)))).
  cbn [config boot]. rewrite dom_empty_L. apply empty_subseteq.
Defined.

Example load_config_drops_volume :
  let st := (load_config reference_platform
               (boot (disk (Some trail_and_volume_text)))).2 in
  config st !! "volume" = None /\ config st !! "mode" = Some (JStr "trail").
Proof. vm_compute. split; reflexivity. Qed.



(** X5: on working storage, when the file is absent or is not JSON, one
    [load_config] creates the file with the defaults, and a second one right
    after it changes nothing at all: no further write, the same machine.
    The codec is assumed to read back what it printed for the defaults. *)
Theorem load_config_settles P st :
  read_fault (fs st) = false ->
  write_behaviour (fs st) = NoFault ->
  (config_file (fs st) = None
   \/ exists text, config_file (fs st) = Some text /\ json_loads P text = None) ->
  json_loads P (json_dumps P (JDict DEFAULT_CONFIG_copy)) = Some (JDict DEFAULT_CONFIG_copy) ->
  let st1 := (load_config P st).2 in
  config st1 = DEFAULT_CONFIG_copy
  /\ config_file (fs st1) = Some (json_dumps P (JDict DEFAULT_CONFIG_copy))
  /\ (load_config P st1).2 = st1.
Proof.
  intros Hr Hw Hbad Hcodec st1.
  assert (Hfb : no_usable_file P st) by (right; exact Hbad).
  assert (E : st1 = log (EvFileWrite (json_dumps P (JDict DEFAULT_CONFIG_copy)))
                     (set_file (Some (json_dumps P (JDict DEFAULT_CONFIG_copy)))
                        (set_config DEFAULT_CONFIG_copy st))).
  { unfold st1. rewrite (load_config_fallback P st Hfb).
    by rewrite (save_config_ok P (set_config DEFAULT_CONFIG_copy st) Hw). }
  split; [by rewrite E|]. split; [by rewrite E|].
  rewrite (load_config_dict P st1 (json_dumps P (JDict DEFAULT_CONFIG_copy))
             DEFAULT_CONFIG_copy);
    [| by rewrite E; destruct st as [c a p s [f r w] e]..| done].
  cbn [snd]. rewrite E at 1. cbn [config log set_file set_config].
  rewrite merge_self; [| apply default_copy_dom | done].
  rewrite E. reflexivity.
Qed.

Lemma load_config_settles_witness :
  let st1 := (load_config reference_platform (boot (disk None))).2 in
  config st1 = DEFAULT_CONFIG_copy
  /\ config_file (fs st1) = Some (RefJson.dumps (JDict DEFAULT_CONFIG_copy))
  /\ (load_config reference_platform st1).2 = st1.
Proof.
  apply (load_config_settles reference_platform (boot (disk None))).
  - reflexivity.
  - reflexivity.
  - left. reflexivity.
  - exact dumps_loads_defaults.
Defined.

(** ** More on the access point *)

Lemma start_ap_mode_accepted_state P st :
  radio_start_ap P (configured_ap_ssid st) (configured_ap_password st) = true ->
  start_ap_mode P st = (Ok (web_server_start P true), ap_started P st).
Proof.
  intros H. unfold start_ap_mode, ap_started.
  unfold bind at 1. unfold modify at 1. unfold try_except.
  unfold bind at 1. unfold config_get at 1. unfold gets at 1.
  unfold bind at 1. unfold config_get at 1. unfold gets at 1.
  unfold bind at 1. unfold wifi_radio_start_ap. unfold bind at 1. unfold modify at 1.
  change (config (log (EvApFlag true) (set_in_ap_mode true st))) with (config st).
  fold (configured_ap_ssid st) (configured_ap_password st). rewrite H.
  unfold ret at 1. unfold bind at 1.
  unfold blink_led, blinks.
  destruct (has_led P).
  - rewrite blink_loop. unfold bind, modify, serve, ret, raise, any_exception.
    destruct (web_server_start P true); reflexivity.
  - unfold ret at 1. rewrite log_all_nil.
    unfold bind, modify, serve, ret, raise, any_exception.
    destruct (web_server_start P true); reflexivity.
Qed.

(** X6: one call of [start_ap_mode] calls the radio's start_ap exactly
    once, with the SSID and the password of the configuration (LEDClock and
    clockconfig where the key is missing), whether the call succeeds or not:
    there is no second attempt.  It never writes the configuration file,
    never changes the configuration in memory or the file system, and never
    asks the radio to connect as a client. *)
Theorem start_ap_mode_footprint P st :
  let r := start_ap_mode P st in
  config r.2 = config st
  /\ fs r.2 = fs st
  /\ exists new,
       events r.2 = events st ++ new
       /\ filter is_radio_start_ap new
          = [EvRadioStartAp (configured_ap_ssid st) (configured_ap_password st)]
       /\ filter is_file_write new = []
       /\ filter is_radio_connect new = [].
Proof.
  intros r. subst r.
  destruct (radio_start_ap P (configured_ap_ssid st) (configured_ap_password st)) eqn:Hr.
  - rewrite (start_ap_mode_accepted_state P st Hr). cbn [snd]. unfold ap_started, blinks.
    destruct (has_led P), (web_server_start P true);
      (split; [reflexivity|]); (split; [reflexivity|]);
      eexists; (split; [cbn; rewrite <- ?app_assoc; reflexivity|]); cbn; done.
  - rewrite (start_ap_mode_refused P st Hr). cbn [snd].
    split; [reflexivity|]. split; [reflexivity|].
    eexists. split; [cbn; rewrite <- ?app_assoc; reflexivity|]. done.
Qed.

(** X7: what [start_ap_mode] leaves in the globals [pool] and [server].
    When the radio refuses they are as before.  When the radio accepts they
    are both assigned before the web server is started, so a failure of the
    web server leaves a server object that does not listen, behind an access
    point that is up, and the result is False.  The result is True exactly
    when the radio accepted and the server listens, and then starting the
    server was the last thing done. *)
Theorem start_ap_mode_globals P st :
  let r := start_ap_mode P st in
  let accepted := radio_start_ap P (configured_ap_ssid st) (configured_ap_password st) in
  pool r.2 = (if accepted then true else pool st)
  /\ server r.2 = (if accepted
                   then if web_server_start P true then ServerListening else ServerCreated
                   else server st)
  /\ (r.1 = Ok true <-> accepted = true /\ web_server_start P true = true)
  /\ (r.1 = Ok true -> last (events r.2) = Some EvServerStart).
Proof.
  intros r accepted. subst r accepted.
  destruct (radio_start_ap P (configured_ap_ssid st) (configured_ap_password st)) eqn:Hr.
  - rewrite (start_ap_mode_accepted_state P st Hr). cbn [fst snd]. unfold ap_started.
    destruct (web_server_start P true);
      cbn [pool server set_server set_pool log log_all events].
    + split; [done|]. split; [done|]. split; [done|].
      intros _. by rewrite last_snoc.
    + split; [done|]. split; [done|]. split; [|intros [=]].
      split; [intros [=] | intros [_ [=]]].
  - rewrite (start_ap_mode_refused P st Hr). cbn [fst snd].
    split; [done|]. split; [done|]. split; [|intros [=]].
    split; [intros [=] | intros [[=] _]].
Qed.

Lemma start_ap_mode_globals_witness :
  let r := start_ap_mode reference_platform (with_ap_password "12345678") in
  pool r.2 = true /\ server r.2 = ServerListening
  /\ last (events r.2) = Some EvServerStart.
Proof.
  pose proof (start_ap_mode_globals reference_platform (with_ap_password "12345678"))
    as (Hp & Hs & _ & Hlast).
  split; [exact Hp|]. split; [exact Hs|]. apply Hlast. reflexivity.
Defined.

(** ** From the stored file to the radio *)

(** X8: after [load_config], [try_connect_wifi] returns False at once,
    without touching the radio or anything else, unless the file is a JSON
    object that holds a true value under wifi_ssid: a file that is absent,
    unreadable, malformed or no object, and an object whose wifi_ssid is
    missing, empty or null, all end in the guard. *)
Theorem no_stored_ssid_no_client_attempt P st :
  ~ file_offers_ssid P st ->
  let st' := (load_config P st).2 in
  try_connect_wifi P st' = (Ok false, st').
Proof.
  intros Hno st'. apply try_connect_wifi_no_ssid. unfold st'.
  destruct (load_config_cases P st)
    as [(text & d & Hr & Hf & Hl)|[(text & v & Hr & Hf & Hl & Hv)|Hbad]].
  - rewrite (load_config_dict P st text d Hr Hf Hl). cbn [snd config set_config].
    rewrite (merge_lookup_in d DEFAULT_CONFIG _ "wifi_ssid" (JStr "") default_keys_NoDup)
      by (apply list_elem_of_here).
    destruct (d !! "wifi_ssid") as [v|] eqn:Hd; [|reflexivity].
    cbn [default id]. destruct (truthy v) eqn:Hv; [|reflexivity].
    destruct Hno. exists text, d, v. done.
  - by rewrite (load_config_not_dict P st text v Hr Hf Hl Hv).
  - rewrite (load_config_fallback P st Hbad). cbn [snd].
    by rewrite save_config_config.
Qed.

Lemma no_stored_ssid_no_client_attempt_witness :
  let st' := (load_config reference_platform (boot (disk (Some trail_only_text)))).2 in
  try_connect_wifi reference_platform st' = (Ok false, st').
Proof.
  apply (no_stored_ssid_no_client_attempt reference_platform
           (boot (disk (Some trail_only_text)))).
  intros (text & d & v & _ & Hf & Hl & Hd & _).
  cbn in Hf. injection Hf as <-.
  change (RefJson.loads trail_only_text = Some (JDict d)) in Hl.
  rewrite loads_trail_only in Hl.
  injection Hl as <-. vm_compute in Hd. discriminate Hd.
Defined.

(** X9: a device without a usable configuration file offers the
    built-in credentials: after [load_config], [start_ap_mode] calls the
    radio once, with the SSID LEDClock and the password clockconfig, and it
    returns True exactly when the radio accepts them and the web server
    starts. *)
Theorem no_file_access_point P st :
  no_usable_file P st ->
  let st' := (load_config P st).2 in
  let r := start_ap_mode P st' in
  filter is_radio_start_ap (events r.2)
  = filter is_radio_start_ap (events st')
    ++ [EvRadioStartAp (JStr "LEDClock") (JStr "clockconfig")]
  /\ r.1 = Ok (radio_start_ap P (JStr "LEDClock") (JStr "clockconfig")
               && web_server_start P true).
Proof.
  intros Hbad st' r.
  assert (Hc : config st' = DEFAULT_CONFIG_copy).
  { unfold st'. rewrite (load_config_fallback P st Hbad). cbn [snd].
    by rewrite save_config_config. }
  assert (Hs : configured_ap_ssid st' = JStr "LEDClock").
  { unfold configured_ap_ssid. rewrite Hc. reflexivity. }
  assert (Hp : configured_ap_password st' = JStr "clockconfig").
  { unfold configured_ap_password. rewrite Hc. reflexivity. }
  rewrite <- Hs, <- Hp. unfold r.
  destruct (radio_start_ap P (configured_ap_ssid st') (configured_ap_password st')) eqn:Hr.
  - rewrite (start_ap_mode_accepted_state P st' Hr). cbn [fst snd].
    split; [|reflexivity].
    unfold ap_started, blinks.
    destruct (has_led P), (web_server_start P true);
      cbn [events log log_all set_server set_pool set_in_ap_mode];
      rewrite !filter_app; cbn; by rewrite ?app_nil_r.
  - rewrite (start_ap_mode_refused P st' Hr). cbn [fst snd].
    split; [|reflexivity].
    cbn [events log set_in_ap_mode]. rewrite !filter_app. cbn.
    by rewrite app_nil_r.
Qed.

Lemma no_file_access_point_witness :
  let st' := (load_config reference_platform (boot (disk None))).2 in
  let r := start_ap_mode reference_platform st' in
  filter is_radio_start_ap (events r.2)
  = filter is_radio_start_ap (events st')
    ++ [EvRadioStartAp (JStr "LEDClock") (JStr "clockconfig")]
  /\ r.1 = Ok (radio_start_ap reference_platform (JStr "LEDClock") (JStr "clockconfig")
               && web_server_start reference_platform true).
Proof.
  apply (no_file_access_point reference_platform (boot (disk None))).
  right. left. reflexivity.
Defined.

(** ** The colour conversions of the control page *)

Import ControlPage.

Example rgbToHex_red : rgbToHex [255; 0; 0] = "#ff0000".
Proof. vm_compute. reflexivity. Qed.

Example rgbToHex_marker : rgbToHex [32; 32; 32] = "#202020".
Proof. vm_compute. reflexivity. Qed.

(** A channel of 256 carries into the guard bit, which [slice(1)] drops. *)
Example rgbToHex_overflow : rgbToHex [256; 0; 0] = "#000000".
Proof. vm_compute. reflexivity. Qed.

Example rgbToHex_two_elements : rgbToHex [1; 2] = "#aN".
Proof. vm_compute. reflexivity. Qed.

Example hexToRgb_orange : hexToRgb "#ff8000" = [Some 255; Some 128; Some 0].
Proof. vm_compute. reflexivity. Qed.

Example hexToRgb_short_text : hexToRgb "#ff" = [Some 255; None; None].
Proof. vm_compute. reflexivity. Qed.

Lemma to_int32_small z : - 2 ^ 31 <= z < 2 ^ 31 -> to_int32 z = z.
Proof. intros H. unfold to_int32. rewrite Z.mod_small; lia. Qed.

Lemma shl_small x k : 0 <= k -> 0 <= x -> x * 2 ^ k < 2 ^ 31 -> shl x k = x * 2 ^ k.
Proof.
  intros Hk Hx H. unfold shl.
  pose proof (Z.pow_pos_nonneg 2 k ltac:(lia) Hk).
  rewrite (to_int32_small x) by nia. apply to_int32_small. nia.
Qed.

Lemma hex_digits_snoc f q d :
  0 < q -> 0 <= d < 16 ->
  hex_digits (S f) (16 * q + d) = hex_digits f q +:+ String (hex_digit d) EmptyString.
Proof.
  intros Hq Hd. cbn [hex_digits].
  destruct (Z.ltb_spec (16 * q + d) 16); [lia|].
  replace ((16 * q + d) / 16) with q by (apply (Z.div_unique _ 16 q d); lia).
  replace ((16 * q + d) mod 16) with d by (apply (Z.mod_unique _ 16 q d); lia).
  reflexivity.
Qed.

Lemma split16 c :
  is_channel c ->
  c = 16 * (c / 16) + c mod 16 /\ 0 <= c / 16 < 16 /\ 0 <= c mod 16 < 16.
Proof.
  unfold is_channel. intros H.
  pose proof (Z.div_mod c 16 ltac:(lia)).
  pose proof (Z.mod_pos_bound c 16 ltac:(lia)).
  split; [lia|]. split; [|lia].
  split; [apply Z.div_pos; lia | apply Z.div_lt_upper_bound; lia].
Qed.

Lemma join16 d1 d0 :
  0 <= d1 < 16 -> 0 <= d0 < 16 ->
  (16 * d1 + d0) / 16 = d1 /\ (16 * d1 + d0) mod 16 = d0 /\ is_channel (16 * d1 + d0).
Proof.
  intros H1 H0. split; [|split].
  - symmetry. apply (Z.div_unique _ 16 d1 d0); lia.
  - symmetry. apply (Z.mod_unique _ 16 d1 d0); lia.
  - unfold is_channel. lia.
Qed.

(** The colour string of three channels in range, digit by digit. *)
Lemma rgbToHex_digits r g b :
  is_channel r -> is_channel g -> is_channel b ->
  rgbToHex [r; g; b]
  = String "#"%char (String (hex_digit (r / 16)) (String (hex_digit (r mod 16))
      (String (hex_digit (g / 16)) (String (hex_digit (g mod 16))
      (String (hex_digit (b / 16)) (String (hex_digit (b mod 16)) EmptyString)))))).
Proof.
  intros Hr Hg Hb.
  destruct (split16 r Hr) as (Er & Hr1 & Hr0).
  destruct (split16 g Hg) as (Eg & Hg1 & Hg0).
  destruct (split16 b Hb) as (Eb & Hb1 & Hb0).
  unfold is_channel in Hr, Hg, Hb.
  set (r1 := r / 16) in *. set (r0 := r mod 16) in *.
  set (g1 := g / 16) in *. set (g0 := g mod 16) in *.
  set (b1 := b / 16) in *. set (b0 := b mod 16) in *.
  unfold rgbToHex.
  change ([r; g; b] !! 2%nat) with (Some b).
  change ([r; g; b] !! 0%nat) with (Some r).
  change ([r; g; b] !! 1%nat) with (Some g). cbn [default id].
  rewrite (shl_small 1 24), (shl_small r 16), (shl_small g 8) by lia.
  set (n := 1 * 2 ^ 24 + r * 2 ^ 16 + g * 2 ^ 8 + b).
  assert (Hn : n = 16 * (16 * (16 * (16 * (16 * (16 * 1 + r1) + r0) + g1) + g0) + b1) + b0)
    by (unfold n; lia).
  assert (Hlog : Z.log2 n = 24).
  { apply Z.log2_unique; unfold n; lia. }
  unfold toString16. destruct (Z.ltb_spec n 0); [unfold n in *; lia|].
  rewrite Hlog. change (S (Z.to_nat 24)) with 25%nat. rewrite Hn.
  rewrite !hex_digits_snoc by lia.
  reflexivity.
Qed.

Lemma below_16 d : 0 <= d < 16 -> In d (map Z.of_nat (seq 0 16)).
Proof.
  intros H. apply in_map_iff. exists (Z.to_nat d). split; [lia|].
  apply in_seq. lia.
Qed.

Lemma parse_two_digits d1 d0 :
  0 <= d1 < 16 -> 0 <= d0 < 16 ->
  parseInt16 (String (hex_digit d1) (String (hex_digit d0) EmptyString))
  = Some (16 * d1 + d0).
Proof.
  intros H1 H0.
  assert (Hall : forallb (fun a => forallb (fun b =>
            match parseInt16 (String (hex_digit a) (String (hex_digit b) EmptyString)) with
            | Some v => v =? 16 * a + b
            | None => false
            end) (map Z.of_nat (seq 0 16))) (map Z.of_nat (seq 0 16)) = true)
    by (vm_compute; reflexivity).
  rewrite forallb_forall in Hall. specialize (Hall d1 (below_16 d1 H1)).
  rewrite forallb_forall in Hall. specialize (Hall d0 (below_16 d0 H0)).
  destruct (parseInt16 _) as [v|]; [|discriminate Hall].
  apply Z.eqb_eq in Hall. by rewrite Hall.
Qed.

Lemma hex_digit_lower d : 0 <= d < 16 -> is_lower_hex (hex_digit d) = true.
Proof.
  intros H.
  assert (Hall : forallb (fun a => is_lower_hex (hex_digit a)) (map Z.of_nat (seq 0 16))
                 = true) by (vm_compute; reflexivity).
  rewrite forallb_forall in Hall. exact (Hall d (below_16 d H)).
Qed.

Lemma lower_hex_digit c :
  is_lower_hex c = true -> exists d, 0 <= d < 16 /\ c = hex_digit d.
Proof.
  intros H. exists (default 0 (hex_value c)).
  destruct c as [[] [] [] [] [] [] [] []]; try discriminate H;
    vm_compute; repeat split; congruence.
Qed.

(** X10: for every colour with channels in [0,255], [rgbToHex] gives a
    hash sign followed by six lower-case hexadecimal digits, the form a
    colour input takes, and [hexToRgb] reads the three channels back from
    it. *)
Theorem hexToRgb_rgbToHex r g b :
  is_channel r -> is_channel g -> is_channel b ->
  hexToRgb (rgbToHex [r; g; b]) = [Some r; Some g; Some b]
  /\ is_color_value (rgbToHex [r; g; b]) = true.
Proof.
  intros Hr Hg Hb. rewrite (rgbToHex_digits r g b Hr Hg Hb).
  destruct (split16 r Hr) as (Er & Hr1 & Hr0).
  destruct (split16 g Hg) as (Eg & Hg1 & Hg0).
  destruct (split16 b Hb) as (Eb & Hb1 & Hb0).
  split.
  - unfold hexToRgb. cbn [String.substring].
    rewrite !parse_two_digits by done.
    by rewrite <- Er, <- Eg, <- Eb.
  - cbn [is_color_value forallb]. by rewrite !hex_digit_lower.
Qed.

Lemma hexToRgb_rgbToHex_witness :
  hexToRgb (rgbToHex [255; 128; 7]) = [Some 255; Some 128; Some 7]
  /\ is_color_value (rgbToHex [255; 128; 7]) = true.
Proof.
  apply (hexToRgb_rgbToHex 255 128 7); unfold is_channel; lia.
Defined.

(** X11: for every text made of a hash sign and six lower-case
    hexadecimal digits, [hexToRgb] yields three channels in [0,255], none of
    them NaN, and [rgbToHex] gives the same text back. *)
Theorem rgbToHex_hexToRgb s :
  is_color_value s = true ->
  exists r g b,
    hexToRgb s = [Some r; Some g; Some b]
    /\ is_channel r /\ is_channel g /\ is_channel b
    /\ rgbToHex [r; g; b] = s.
Proof.
  intros H. unfold is_color_value in H.
  destruct s as [|c0 [|c1 [|c2 [|c3 [|c4 [|c5 [|c6 [|]]]]]]]]; try discriminate H;
    try (destruct c0 as [[] [] [] [] [] [] [] []]; discriminate H).
  assert (c0 = "#"%char) as ->.
  { destruct c0 as [[] [] [] [] [] [] [] []]; try discriminate H; reflexivity. }
  cbn [forallb] in H.
  repeat (apply andb_prop in H as [?%lower_hex_digit H]).
  repeat match goal with Hx : exists d, _ |- _ => destruct Hx as (? & ? & ->) end.
  match goal with
  | |- context [String "#" (String (hex_digit ?a1) (String (hex_digit ?a0)
         (String (hex_digit ?b1) (String (hex_digit ?b0)
         (String (hex_digit ?c1) (String (hex_digit ?c0) EmptyString))))))] =>
      exists (16 * a1 + a0), (16 * b1 + b0), (16 * c1 + c0);
      destruct (join16 a1 a0) as (Ea1 & Ea0 & Ha); [done..|];
      destruct (join16 b1 b0) as (Eb1 & Eb0 & Hb); [done..|];
      destruct (join16 c1 c0) as (Ec1 & Ec0 & Hc); [done..|]
  end.
  split.
  { unfold hexToRgb. cbn [String.substring]. by rewrite !parse_two_digits. }
  repeat (split; [done|]).
  rewrite rgbToHex_digits by done.
  by rewrite Ea1, Ea0, Eb1, Eb0, Ec1, Ec0.
Qed.

Lemma rgbToHex_hexToRgb_witness :
  exists r g b,
    hexToRgb "#20c0ff" = [Some r; Some g; Some b]
    /\ is_channel r /\ is_channel g /\ is_channel b
    /\ rgbToHex [r; g; b] = "#20c0ff".
Proof.
  apply (rgbToHex_hexToRgb "#20c0ff"). reflexivity.
Defined.
